(** * A shallow embedding of drbm.py (Discriminative Restricted Boltzmann Machine)

    The methods of the Python class build Theano graphs: a call of a method
    computes no number, it returns Theano variables, and Python itself runs
    only what is numpy or plain Python in the method.  The embedding follows
    what Python does in such a call:

    - a Theano variable is represented by the value that its graph computes
      on real numbers; a 1-d tensor is a list of scalars, a 2-d tensor a list
      of rows, a 3-d tensor a list of matrices;
    - where the source hands a tensor to a numpy function, to an item
      assignment or to [theano.shared], the tensor is an [operand], a numpy
      array or a Theano variable, and the operation raises where Python
      raises on a Theano variable;
    - the functions that build the cost take their scalars from a type class
      [Scalar], so that the same definition runs on the reals (the value of
      the cost), on dual numbers (its derivative) and on traced numbers (the
      shared variables it is computed from), which is how [T.grad] is read;
    - Python exceptions are results of type [result];
    - the two random generators are streams of uniform draws in a state that
      is passed explicitly: the draws of the numpy generator are taken when
      the method is called, those of the Theano generator belong to the
      graph.

    The value of a graph is given for tensors whose shapes conform where two
    of them are combined; theorems that depend on shapes state them as
    hypotheses.  A dimension of size zero is not represented (a list of rows
    does not record the width of a matrix without rows). *)

From Stdlib Require Import Reals Lra Lia List Arith Bool ZArith.
Import ListNotations.

Local Open Scope R_scope.

(** ** Python results *)

Inductive exn : Type :=
| TypeError
| IndexError
| ValueError
| DisconnectedInputError.   (* theano.gradient.DisconnectedInputError *)

Inductive result (A : Type) : Type :=
| Ok (a : A)
| Raise (e : exn).
Arguments Ok {A} a.
Arguments Raise {A} e.

Definition rbind {A B : Type} (r : result A) (f : A -> result B) : result B :=
  match r with
  | Ok a => f a
  | Raise e => Raise e
  end.

Notation "'let?' x ':=' c 'in' k" := (rbind c (fun x => k))
  (at level 10, x pattern, c at level 100, k at level 200).

(** [l[i]] for a Python sequence or a numpy array: IndexError when out of
    range. *)
Definition getitem {A : Type} (l : list A) (i : nat) : result A :=
  match nth_error l i with
  | Some a => Ok a
  | None => Raise IndexError
  end.

(** [l[i] = a], for an index in range. *)
Fixpoint setitem {A : Type} (l : list A) (i : nat) (a : A) : list A :=
  match l, i with
  | [], _ => []
  | _ :: t, O => a :: t
  | h :: t, S i' => h :: setitem t i' a
  end.

(** A call [f(a)] or [f(a, b)] of a method declared with two required
    parameters (besides self): Python raises TypeError unless both are bound. *)
Definition call2 {A B : Type} (f : A -> A -> B) (args : list A) : result B :=
  match args with
  | [a; b] => Ok (f a b)
  | _ => Raise TypeError
  end.

(** ** numpy arrays and Theano variables *)

(** A tensor as Python holds it: a numpy array, or a Theano variable (with
    the value of its graph). *)
Inductive operand (A : Type) : Type :=
| ndarray (a : A)
| TensorVariable (a : A).
Arguments ndarray {A} a.
Arguments TensorVariable {A} a.

(** [theano.shared(value)]: a new shared variable that holds a numpy value;
    TypeError when the value is itself a Theano variable. *)
Definition theano_shared {A : Type} (value : operand A) : result A :=
  match value with
  | ndarray a => Ok a
  | TensorVariable _ => Raise TypeError
  end.

(** [t[i]] and [t[-1]] on a Theano variable: a node of the graph; nothing is
    checked when it is built. *)
Definition subtensor {A : Type} (t : list (list A)) (i : nat) : list A := nth i t [].
Definition subtensor_last {A : Type} (t : list (list (list A))) : list (list A) :=
  last t [].

(** [t[i] = value] on a Theano variable: a variable has no item assignment,
    TypeError. *)
Definition TensorVariable_setitem {A B : Type} (t : A) (i : nat) (value : B)
  : result A :=
  Raise TypeError.

(** ** Scalars *)

Class Scalar (K : Type) : Type := {
  const : R -> K;
  add : K -> K -> K;
  sub : K -> K -> K;
  mul : K -> K -> K;
  div : K -> K -> K;
  neg : K -> K;
  sexp : K -> K;          (* T.exp *)
  slog : K -> K;          (* T.log *)
  softplus : K -> K;      (* T.nnet.softplus *)
  sigmoid : K -> K;       (* T.nnet.sigmoid *)
  leaf : K -> K           (* the value alone, as a new leaf of the graph *)
}.

Definition Rsoftplus (x : R) : R := ln (1 + exp x).
Definition Rsigmoid (x : R) : R := / (1 + exp (- x)).

#[export] Instance Scalar_R : Scalar R := {
  const := fun x => x;
  add := Rplus;
  sub := Rminus;
  mul := Rmult;
  div := Rdiv;
  neg := Ropp;
  sexp := exp;
  slog := ln;
  softplus := Rsoftplus;
  sigmoid := Rsigmoid;
  leaf := fun x => x
}.

(** Dual numbers: a value and its derivative in one chosen direction. *)
Definition dual : Type := (R * R)%type.

Definition primal (d : dual) : R := fst d.
Definition tangent (d : dual) : R := snd d.

#[export] Instance Scalar_dual : Scalar dual := {
  const := fun x => (x, 0);
  add := fun a b => (fst a + fst b, snd a + snd b);
  sub := fun a b => (fst a - fst b, snd a - snd b);
  mul := fun a b => (fst a * fst b, snd a * fst b + fst a * snd b);
  div := fun a b => (fst a / fst b,
                     (snd a * fst b - fst a * snd b) / (fst b * fst b));
  neg := fun a => (- fst a, - snd a);
  sexp := fun a => (exp (fst a), exp (fst a) * snd a);
  slog := fun a => (ln (fst a), snd a / fst a);
  softplus := fun a => (Rsoftplus (fst a), Rsigmoid (fst a) * snd a);
  sigmoid := fun a => (Rsigmoid (fst a),
                       Rsigmoid (fst a) * (1 - Rsigmoid (fst a)) * snd a);
  leaf := fun a => (fst a, 0)
}.

(** ** Tensors *)

Section Tensor.
Context {K : Type} `{Scalar K}.

Definition vec : Type := list K.
Definition mat : Type := list (list K).

Fixpoint map2 {A B C : Type} (f : A -> B -> C) (l : list A) (l' : list B) : list C :=
  match l, l' with
  | a :: t, b :: t' => f a b :: map2 f t t'
  | _, _ => []
  end.

Definition vsum (v : vec) : K := fold_right add (const 0) v.
Definition vdot (x y : vec) : K := vsum (map2 mul x y).

Definition column (m : mat) (j : nat) : vec := map (fun r => nth j r (const 0)) m.

(** [m.T] *)
Definition transpose (m : mat) : mat :=
  match m with
  | [] => []
  | r :: _ => map (column m) (seq 0 (length r))
  end.

(** [T.dot] of two matrices, and of a matrix with a vector *)
Definition T_dot (a b : mat) : mat :=
  map (fun r => map (vdot r) (transpose b)) a.
Definition T_dot_mv (a : mat) (v : vec) : vec := map (fun r => vdot r v) a.

(** elementwise operations; a vector is broadcast along the rows *)
Definition map_m (f : K -> K) (m : mat) : mat := map (map f) m.
Definition ew_vv (f : K -> K -> K) (x y : vec) : vec := map2 f x y.
Definition ew_mm (f : K -> K -> K) (a b : mat) : mat := map2 (map2 f) a b.
Definition ew_mv (f : K -> K -> K) (a : mat) (v : vec) : mat :=
  map (fun r => map2 f r v) a.
Definition ew_ms (f : K -> K -> K) (a : mat) (s : K) : mat :=
  map_m (fun x => f x s) a.

(** [T.sum(m, axis=1)], [T.sum(m)], [T.sum(t3, axis=1)] *)
Definition T_sum_axis1 (m : mat) : vec := map vsum m.
Definition T_sum (m : mat) : K := vsum (map vsum m).
Definition T_sum3_axis1 (t : list mat) : mat :=
  map (fun m => map vsum (transpose m)) t.

(** [T.mean] of a 0-d, 1-d and 2-d tensor: the sum of the entries divided
    by their number *)
Definition size_m (m : mat) : nat := fold_right (fun r n => (length r + n)%nat) O m.
Definition T_mean0 (x : K) : K := div x (const 1).
Definition T_mean1 (v : vec) : K := div (vsum v) (const (INR (length v))).
Definition T_mean2 (m : mat) : K := div (T_sum m) (const (INR (size_m m))).

(** [numpy.zeros] *)
Definition zeros1 (n : nat) : vec := repeat (const 0) n.
Definition zeros2 (r c : nat) : mat := repeat (zeros1 c) r.
Definition zeros3 (l r c : nat) : list mat := repeat (zeros2 r c) l.

(** A numpy value as an assignment broadcasts it to a slot of [rows] rows of
    [cols] entries: each of its two dimensions has the size of the slot, or
    the size 1. *)
Definition broadcast_row (cols : nat) (r : vec) : option vec :=
  if (length r =? cols)%nat then Some r
  else match r with
       | [x] => Some (repeat x cols)
       | _ => None
       end.

Fixpoint broadcast_rows (cols : nat) (v : mat) : option mat :=
  match v with
  | [] => Some []
  | r :: t =>
      match broadcast_row cols r, broadcast_rows cols t with
      | Some r', Some t' => Some (r' :: t')
      | _, _ => None
      end
  end.

Definition broadcast_to (rows cols : nat) (v : mat) : option mat :=
  if (length v =? rows)%nat then broadcast_rows cols v
  else match v with
       | [r] => broadcast_rows cols (repeat r rows)
       | _ => None
       end.

(** [a[ii] = value] on a 3-d numpy array whose slots have [rows] rows of
    [cols] entries.  numpy converts the value to an array of numbers: a
    Theano variable is not one, ValueError; a numpy value that does not
    broadcast to the slot, ValueError. *)
Definition ndarray_setitem3 (a : list mat) (rows cols : nat) (ii : nat)
  (value : operand mat) : result (list mat) :=
  match value with
  | TensorVariable _ => Raise ValueError
  | ndarray v =>
      match broadcast_to rows cols v with
      | None => Raise ValueError
      | Some v' =>
          if (ii <? length a)%nat then Ok (setitem a ii v') else Raise IndexError
      end
  end.
End Tensor.

Arguments vec K : clear implicits.
Arguments mat K : clear implicits.

(** ** The model *)

Record DRBM (K : Type) : Type := {
  n_visible : nat;
  n_hidden : nat;
  n_label : nat;
  alpha : R;
  input : mat K;
  input_label : mat K;
  U : mat K;
  W : mat K;
  hbias : vec K;
  vbias : vec K;
  labbias : vec K
}.
Arguments n_visible {K} _.
Arguments n_hidden {K} _.
Arguments n_label {K} _.
Arguments alpha {K} _.
Arguments input {K} _.
Arguments input_label {K} _.
Arguments U {K} _.
Arguments W {K} _.
Arguments hbias {K} _.
Arguments vbias {K} _.
Arguments labbias {K} _.

Section Graph.
Context {K : Type} `{Scalar K}.

(** [free_energy]: the label bias is 1-d, so [labbias.T] is [labbias]. *)
Definition free_energy (self : DRBM K) (v_sample lab_sample : mat K) : vec K :=
  let wx_b := ew_mm add (ew_mv add (T_dot v_sample (W self)) (hbias self))
                        (T_dot lab_sample (U self)) in
  let hidden_term := T_sum_axis1 (map_m softplus wx_b) in
  let label_term := T_dot_mv lab_sample (labbias self) in
  ew_vv sub (map neg hidden_term) label_term.

(** The loop of [precompute_thingy]: [precomputed_labs[ii] = precomputed]. *)
Fixpoint fill_slots (precomputed_labs : list (mat K)) (rows cols : nat)
  (precomputed : operand (mat K)) (iis : list nat) {struct iis}
  : result (list (mat K)) :=
  match iis with
  | [] => Ok precomputed_labs
  | ii :: rest =>
      let? precomputed_labs :=
        ndarray_setitem3 precomputed_labs rows cols ii precomputed in
      fill_slots precomputed_labs rows cols precomputed rest
  end.

(** [precompute_thingy]: [precomputed] is a Theano variable, the array of
    zeros a numpy array; the label coupling is commented out in the source. *)
Definition precompute_thingy (self : DRBM K) (v_sample : mat K) (batch_size : nat)
  : result (list (mat K)) :=
  let precomputed := TensorVariable (ew_mv add (T_dot v_sample (W self)) (hbias self)) in
  let precomputed_labs := zeros3 (n_label self) batch_size (n_hidden self) in
  let? precomputed_labs :=
    fill_slots precomputed_labs batch_size (n_hidden self) precomputed
               (seq 0 (n_label self)) in
  theano_shared (ndarray precomputed_labs).

Definition precompute_a (self : DRBM K) (v_sample : mat K) : mat K :=
  ew_mv add (T_dot v_sample (W self)) (hbias self).

(** The loop of [sample_y_given_x]:
    [neg_free_energy_exp[ii] = neg_free_energy_exp[ii] / sum_all[ii]], an item
    assignment on a Theano variable. *)
Fixpoint normalize_rows (e : mat K) (sum_all : vec K) (iis : list nat) {struct iis}
  : result (mat K) :=
  match iis with
  | [] => Ok e
  | ii :: rest =>
      let row := subtensor e ii in
      let s := nth ii sum_all (const 0) in
      let? e := TensorVariable_setitem e ii (map (fun x => div x s) row) in
      normalize_rows e sum_all rest
  end.

(** [sample_y_given_x]: what [precompute_thingy] returns is a shared
    variable, and it is handed to [theano.shared] once more. *)
Definition sample_y_given_x (self : DRBM K) (v_sample : mat K) (batch_size : nat)
  : result (mat K) :=
  let? thingy := precompute_thingy self v_sample batch_size in
  let? pc := theano_shared (TensorVariable thingy) in
  let neg_free_energy :=
    ew_mv sub (map_m neg (transpose (T_sum3_axis1 (map (map_m softplus) pc))))
          (labbias self) in
  let neg_free_energy_exp :=
    map_m sexp (ew_ms sub neg_free_energy (T_mean2 neg_free_energy)) in
  let sum_all := T_sum_axis1 neg_free_energy_exp in
  normalize_rows neg_free_energy_exp sum_all (seq 0 batch_size).

Definition propup (self : DRBM K) (vis lab : mat K) : mat K * mat K :=
  let pre_sigmoid_activation :=
    ew_mm add (ew_mv add (T_dot vis (W self)) (hbias self)) (T_dot lab (U self)) in
  (pre_sigmoid_activation, map_m sigmoid pre_sigmoid_activation).

Definition propdown (self : DRBM K) (hid : mat K) : mat K * mat K :=
  let pre_sigmoid_activation :=
    ew_mv add (T_dot hid (transpose (W self))) (vbias self) in
  (pre_sigmoid_activation, map_m sigmoid pre_sigmoid_activation).

(** [propdown_label]: [norm_factor.reshape(norm_factor.size, 1)] is Theano's
    [reshape(shape, ndim)] with the shape [norm_factor.size] and [ndim = 1],
    so [norm] is again the vector of the row sums; the division broadcasts it
    along the rows, and entry (i, j) is divided by the sum of row j. *)
Definition propdown_label (self : DRBM K) (hid : mat K) : mat K * mat K :=
  let pre_norm_activation :=
    map_m sexp (ew_mv add (T_dot hid (transpose (U self))) (labbias self)) in
  let norm_factor := T_sum_axis1 pre_norm_activation in
  let norm := norm_factor in
  let probs := ew_mv div pre_norm_activation norm in
  (pre_norm_activation, probs).

(** The scalar cost of [get_cost_updates], as a function of the parameters
    and of the two nodes at the end of the chain. *)
Definition cost_discriminative (self : DRBM K) (y_sampled : mat K) : K :=
  T_mean0 (T_sum (ew_mm sub (input_label self) y_sampled)).

Definition cost_generative (self : DRBM K) (chain_end chain_end_labels : mat K) : K :=
  sub (T_mean1 (free_energy self (input self) (input_label self)))
      (T_mean1 (free_energy self chain_end chain_end_labels)).

Definition cost (self : DRBM K) (chain_end chain_end_labels : mat K) (batch_size : nat)
  : result K :=
  let cost_generative := cost_generative self chain_end chain_end_labels in
  let? y_sampled := sample_y_given_x self chain_end batch_size in
  let cost_discriminative := cost_discriminative self y_sampled in
  Ok (add cost_discriminative (mul (const (alpha self)) cost_generative)).
End Graph.

(** ** Random generators and sampling *)

Definition stream : Type := nat -> R.

Definition take (n : nat) (s : stream) : list R := map s (seq 0 n).
Definition drop (n : nat) (s : stream) : stream := fun k => s (n + k)%nat.

Record rng : Type := {
  theano_rng : stream;   (* self.theano_rng *)
  numpy_rng : stream     (* self.numpy_rng *)
}.

Definition M (A : Type) : Type := rng -> result (A * rng).

Definition ret {A : Type} (a : A) : M A := fun g => Ok (a, g).

Definition bind {A B : Type} (c : M A) (f : A -> M B) : M B :=
  fun g => match c g with
           | Ok (a, g') => f a g'
           | Raise e => Raise e
           end.

Definition lift {A : Type} (r : result A) : M A :=
  fun g => match r with
           | Ok a => Ok (a, g)
           | Raise e => Raise e
           end.

Notation "x <- c ;; k" := (bind c (fun x => k))
  (at level 61, c at next level, right associativity).
Notation "' pat <- c ;; k" := (bind c (fun x => match x with pat => k end))
  (at level 61, pat pattern, c at next level, right associativity).

(** One draw of [binomial(n=1, p)]: 1 when the uniform draw falls below [p]. *)
Definition bernoulli (u p : R) : R := if Rlt_dec u p then 1 else 0.

Fixpoint binomial_rows (p : mat R) (s : stream) : mat R * stream :=
  match p with
  | [] => ([], s)
  | r :: t =>
      let row := map2 bernoulli (take (length r) s) r in
      let (rest, s') := binomial_rows t (drop (length r) s) in
      (row :: rest, s')
  end.

(** [self.theano_rng.binomial(size=p.shape, n=1, p=p)] *)
Definition binomial (p : mat R) : M (mat R) :=
  fun g => let (m, s') := binomial_rows p (theano_rng g) in
           Ok (m, {| theano_rng := s'; numpy_rng := numpy_rng g |}).

Fixpoint rand_rows (rows cols : nat) (s : stream) : mat R * stream :=
  match rows with
  | O => ([], s)
  | S rows' =>
      let (rest, s') := rand_rows rows' cols (drop cols s) in
      (take cols s :: rest, s')
  end.

(** [self.numpy_rng.rand(rows, cols)] *)
Definition rand (rows cols : nat) : M (mat R) :=
  fun g => let (m, s') := rand_rows rows cols (numpy_rng g) in
           Ok (m, {| theano_rng := theano_rng g; numpy_rng := s' |}).

Definition sample_h_given_v (self : DRBM R) (v0_sample l0_sample : mat R)
  : M (mat R * mat R * mat R) :=
  let '(pre_sigmoid_h1, h1_mean) := propup self v0_sample l0_sample in
  h1_sample <- binomial h1_mean ;;
  ret (pre_sigmoid_h1, h1_mean, h1_sample).

Definition sample_v_given_h (self : DRBM R) (h0_sample : mat R)
  : M (mat R * mat R * mat R) :=
  let '(pre_sigmoid_v1, v1_mean) := propdown self h0_sample in
  v1_sample <- binomial v1_mean ;;
  ret (pre_sigmoid_v1, v1_mean, v1_sample).

(** numpy helpers of the label sampler *)
Fixpoint cumsum_from (acc : R) (l : list R) : list R :=
  match l with
  | [] => []
  | x :: t => (acc + x) :: cumsum_from (acc + x) t
  end.
Definition cumsum (l : list R) : list R := cumsum_from 0 l.

Definition Rle_bool (x y : R) : bool := if Rle_dec x y then true else false.

(** [numpy.where(mask)]: the indices at which the mask holds *)
Fixpoint where_from (i : nat) (mask : list bool) : list nat :=
  match mask with
  | [] => []
  | b :: t => if b then i :: where_from (S i) t else where_from (S i) t
  end.
Definition where_ (mask : list bool) : list nat := where_from 0 mask.

(** [numpy.min]: ValueError on an empty array *)
Definition numpy_min (l : list nat) : result nat :=
  match l with
  | [] => Raise ValueError
  | x :: t => Ok (fold_right Nat.min x t)
  end.

(** [numpy.less_equal(a, b)]: on numpy arrays of numbers, entry by entry, an
    array of one entry being broadcast along the other, and ValueError for
    two other arrays of different lengths.  On a Theano variable the
    comparison of two entries is a symbolic expression, and numpy asks it for
    its truth value, which a Theano variable refuses: TypeError. *)
Definition numpy_less_equal (a b : operand (list R)) : result (list bool) :=
  match a, b with
  | ndarray a, ndarray b =>
      match a, b with
      | [u], _ => Ok (map (Rle_bool u) b)
      | _, [c] => Ok (map (fun x => Rle_bool x c) a)
      | _, _ =>
          if (length a =? length b)%nat then Ok (map2 Rle_bool a b)
          else Raise ValueError
      end
  | _, _ => Raise TypeError
  end.

(** [numpy.min(numpy.where(numpy.less_equal(xx1[jj], xx[jj])))] *)
Definition label_index (xx1_jj : list R) (xx_jj : operand (list R)) : result nat :=
  let? mask := numpy_less_equal (ndarray xx1_jj) xx_jj in
  numpy_min (where_ mask).

(** [neg_labs[jj, index] = x]: IndexError when either index is out of range *)
Definition setitem2 (m : mat R) (jj index : nat) (x : R) : result (mat R) :=
  let? row := getitem m jj in
  if (index <? length row)%nat then Ok (setitem m jj (setitem row index x))
  else Raise IndexError.

(** The loop of [sample_lab_given_h] over [jj]: [xx] is a Theano variable,
    [xx1] and [neg_labs] are numpy arrays. *)
Fixpoint neg_labs_loop (xx xx1 neg_labs : mat R) (jjs : list nat) {struct jjs}
  : result (mat R) :=
  match jjs with
  | [] => Ok neg_labs
  | jj :: rest =>
      let? xx1_jj := getitem xx1 jj in
      let xx_jj := TensorVariable (subtensor xx jj) in
      let? index := label_index xx1_jj xx_jj in
      let? neg_labs := setitem2 neg_labs jj index 1 in
      neg_labs_loop xx xx1 neg_labs rest
  end.

(** [sample_lab_given_h]: the cumulative sums are built by
    [theano.tensor.extra_ops.cumsum], the draws and the array of zeros by
    numpy. *)
Definition sample_lab_given_h (self : DRBM R) (h0_sample : mat R)
  : M (mat R * mat R * mat R) :=
  let '(pre_norm_lab1, lab1_mean) := propdown_label self h0_sample in
  let probs := lab1_mean in
  let batch_size := 20%nat in
  let xx := map cumsum probs in
  xx1 <- rand batch_size 1 ;;
  let neg_labs := zeros2 batch_size (n_label self) in
  neg_labs <- lift (neg_labs_loop xx xx1 neg_labs (seq 0 batch_size)) ;;
  neg_labs_theano <- lift (theano_shared (ndarray neg_labs)) ;;
  ret (pre_norm_lab1, lab1_mean, neg_labs_theano).

Definition gibbs_hvh (self : DRBM R) (h0_sample l0_sample : mat R) : M (list (mat R)) :=
  '(pre_sigmoid_v1, v1_mean, v1_sample) <- sample_v_given_h self h0_sample ;;
  '(pre_sigmoid_h1, h1_mean, h1_sample) <- sample_h_given_v self v1_sample l0_sample ;;
  '(pre_sigmoid_l1, l1_mean, l1_sample) <- sample_lab_given_h self h1_sample ;;
  ret [pre_sigmoid_v1; v1_mean; v1_sample;
       pre_sigmoid_h1; h1_mean; h1_sample;
       pre_sigmoid_l1; l1_mean; l1_sample].

(** [gibbs_vhv] calls [sample_h_given_v] with the visible sample alone. *)
Definition gibbs_vhv (self : DRBM R) (v0_sample : mat R) : M (list (mat R)) :=
  '(pre_sigmoid_h1, h1_mean, h1_sample) <-
     bind (lift (call2 (sample_h_given_v self) [v0_sample])) (fun c => c) ;;
  '(pre_sigmoid_v1, v1_mean, v1_sample) <- sample_v_given_h self h1_sample ;;
  '(pre_sigmoid_l1, l1_mean, l1_sample) <- sample_lab_given_h self h1_sample ;;
  ret [pre_sigmoid_h1; h1_mean; h1_sample;
       pre_sigmoid_v1; v1_mean; v1_sample;
       pre_sigmoid_l1; l1_mean; l1_sample].

(** ** Shared variables and the update dictionary *)

Inductive shared : Type :=
| sW | shbias | svbias | sU | slabbias    (* the parameters *)
| spersistent                             (* the persistent chain buffer *)
| sbit_i_idx.                             (* the bit index of the pseudo-likelihood *)

Definition shared_eqb (a b : shared) : bool :=
  match a, b with
  | sW, sW | shbias, shbias | svbias, svbias | sU, sU | slabbias, slabbias
  | spersistent, spersistent | sbit_i_idx, sbit_i_idx => true
  | _, _ => false
  end.

Inductive tensor : Type :=
| TMat (m : mat R)
| TVec (v : vec R)
| TInt (n : nat).

Definition dict : Type := list (shared * tensor).

(** [d[k] = v] *)
Fixpoint dict_set (d : dict) (k : shared) (v : tensor) : dict :=
  match d with
  | [] => [(k, v)]
  | (k', v') :: t => if shared_eqb k k' then (k, v) :: t else (k', v') :: dict_set t k v
  end.

(** [self.params] *)
Definition params : list shared := [sW; shbias; svbias; sU; slabbias].

(** The value of a shared variable of the model; the two buffers are not
    attributes of the model and have no entries here. *)
Definition value (self : DRBM R) (p : shared) : tensor :=
  match p with
  | sW => TMat (W self)
  | shbias => TVec (hbias self)
  | svbias => TVec (vbias self)
  | sU => TMat (U self)
  | slabbias => TVec (labbias self)
  | spersistent => TMat []
  | sbit_i_idx => TInt 0
  end.

(** [param - gparam * lr] *)
Definition descend (param gparam : tensor) (lr : R) : tensor :=
  match param, gparam with
  | TMat p, TMat g => TMat (ew_mm Rminus p (map_m (fun x => x * lr) g))
  | TVec p, TVec g => TVec (ew_vv Rminus p (map (fun x => x * lr) g))
  | _, _ => param
  end.

(** ** T.grad

    [T.grad(cost, wrt, consider_constant)] first looks for every variable of
    [wrt] in the graph of the cost, without entering the nodes listed in
    [consider_constant]: a variable that the cost is not computed from is a
    disconnected input, and T.grad raises DisconnectedInputError (the default
    of [disconnected_inputs]).  The search is read as running the graph on
    traced numbers, which carry beside their value the shared variables they
    are computed from.

    The gradient in a parameter tensor has the shape of the parameter; its
    entry (i, j) is read as the tangent of the cost when the graph is run on
    dual numbers with tangent 1 at entry (i, j) of that parameter and 0 at
    every other leaf.  A node listed in [consider_constant] enters the cost
    as a leaf. *)

Definition traced : Type := (R * (shared -> bool))%type.

Definition nowhere : shared -> bool := fun _ => false.
Definition everywhere : shared -> bool := fun _ => true.
Definition join (a b : shared -> bool) : shared -> bool := fun p => a p || b p.

#[export] Instance Scalar_traced : Scalar traced := {
  const := fun x => (x, nowhere);
  add := fun a b => (fst a + fst b, join (snd a) (snd b));
  sub := fun a b => (fst a - fst b, join (snd a) (snd b));
  mul := fun a b => (fst a * fst b, join (snd a) (snd b));
  div := fun a b => (fst a / fst b, join (snd a) (snd b));
  neg := fun a => (- fst a, snd a);
  sexp := fun a => (exp (fst a), snd a);
  slog := fun a => (ln (fst a), snd a);
  softplus := fun a => (Rsoftplus (fst a), snd a);
  sigmoid := fun a => (Rsigmoid (fst a), snd a);
  leaf := fun a => (fst a, nowhere)
}.

Definition trace_v (from : shared -> bool) (v : vec R) : vec traced :=
  map (fun x => (x, from)) v.
Definition trace_m (from : shared -> bool) (m : mat R) : mat traced :=
  map (trace_v from) m.

(** The model with every parameter entry traced to its shared variable; the
    input and its label are inputs of the graph, computed from no shared
    variable. *)
Definition trace_self (self : DRBM R) : DRBM traced :=
  {| n_visible := n_visible self;
     n_hidden := n_hidden self;
     n_label := n_label self;
     alpha := alpha self;
     input := trace_m nowhere (input self);
     input_label := trace_m nowhere (input_label self);
     U := trace_m (shared_eqb sU) (U self);
     W := trace_m (shared_eqb sW) (W self);
     hbias := trace_v (shared_eqb shbias) (hbias self);
     vbias := trace_v (shared_eqb svbias) (vbias self);
     labbias := trace_v (shared_eqb slabbias) (labbias self)
  |}.

Definition lift_v (v : vec R) : vec dual := map (fun x => (x, 0)) v.
Definition lift_m (m : mat R) : mat dual := map lift_v m.

Definition mapi {A B : Type} (f : nat -> A -> B) (l : list A) : list B :=
  map2 f (seq 0 (length l)) l.

Definition seed_v (v : vec R) (j : nat) : vec dual :=
  mapi (fun j' x => (x, if Nat.eqb j j' then 1 else 0)) v.
Definition seed_m (m : mat R) (i j : nat) : mat dual :=
  mapi (fun i' r => if Nat.eqb i i' then seed_v r j else lift_v r) m.

Definition seed_self (self : DRBM R) (p : shared) (i j : nat) : DRBM dual :=
  {| n_visible := n_visible self;
     n_hidden := n_hidden self;
     n_label := n_label self;
     alpha := alpha self;
     input := lift_m (input self);
     input_label := lift_m (input_label self);
     U := match p with sU => seed_m (U self) i j | _ => lift_m (U self) end;
     W := match p with sW => seed_m (W self) i j | _ => lift_m (W self) end;
     hbias := match p with shbias => seed_v (hbias self) j | _ => lift_v (hbias self) end;
     vbias := match p with svbias => seed_v (vbias self) j | _ => lift_v (vbias self) end;
     labbias := match p with slabbias => seed_v (labbias self) j | _ => lift_v (labbias self) end
  |}.

Definition consider_constant {K : Type} `{Scalar K} (node : mat K) : mat K :=
  map_m leaf node.

Definition sequence {A : Type} (l : list (result A)) : result (list A) :=
  fold_right (fun r acc => let? a := r in let? t := acc in Ok (a :: t)) (Ok []) l.

Section Grad.
Variable cost_of : forall K : Type, Scalar K -> DRBM K -> mat K -> result K.
Variable self : DRBM R.
(** The value of the node listed in [consider_constant], a node computed
    from the parameters. *)
Variable constant_node : mat R.

(** Whether the cost is computed from the shared variable [p]. *)
Definition connected (p : shared) : result bool :=
  let? c := cost_of traced _ (trace_self self)
                    (consider_constant (trace_m everywhere constant_node)) in
  Ok (snd c p).

Definition grad_entry (p : shared) (i j : nat) : result R :=
  let? c := cost_of dual _ (seed_self self p i j)
                    (consider_constant (lift_m constant_node)) in
  Ok (tangent c).

Definition grad_v (p : shared) (v : vec R) : result (vec R) :=
  sequence (mapi (fun j _ => grad_entry p 0 j) v).

Definition grad_m (p : shared) (m : mat R) : result (mat R) :=
  sequence (mapi (fun i r => sequence (mapi (fun j _ => grad_entry p i j) r)) m).

Definition T_grad_wrt (p : shared) : result tensor :=
  let? reached := connected p in
  if reached : bool then
    match value self p with
    | TMat m => let? g := grad_m p m in Ok (TMat g)
    | TVec v => let? g := grad_v p v in Ok (TVec g)
    | TInt n => Raise TypeError
    end
  else Raise DisconnectedInputError.

(** [T.grad(cost, wrt, consider_constant=[constant_node])] *)
Definition T_grad (wrt : list shared) : result (list tensor) :=
  sequence (map T_grad_wrt wrt).
End Grad.

(** ** Monitoring costs *)

(** [T.round], half away from zero *)
Definition T_round (x : R) : R :=
  if Rle_dec 0 x then IZR (Int_part (x + / 2)) else - IZR (Int_part (- x + / 2)).

(** [T.set_subtensor(xi[:, idx], 1 - xi[:, idx])] *)
Definition flip_column (xi : mat R) (idx : nat) : mat R :=
  map (fun r => setitem r idx (1 - nth idx r 0)) xi.

(** [get_pseudo_likelihood_cost]: both calls of [free_energy] pass one tensor. *)
Definition get_pseudo_likelihood_cost (self : DRBM R) (updates : dict) : result (R * dict) :=
  let bit_i_idx := 0%nat in
  let xi := map_m T_round (input self) in
  let? fe_xi := call2 (free_energy self) [xi] in
  let xi_flip := flip_column xi bit_i_idx in
  let? fe_xi_flip := call2 (free_energy self) [xi_flip] in
  let cost :=
    T_mean1 (map (fun d => INR (n_visible self) * ln (Rsigmoid d))
                 (ew_vv Rminus fe_xi_flip fe_xi)) in
  let updates :=
    dict_set updates sbit_i_idx (TInt ((bit_i_idx + 1) mod n_visible self)) in
  Ok (cost, updates).

Definition get_reconstruction_cost (self : DRBM R) (updates : dict) (pre_sigmoid_nv : mat R)
  : R :=
  let cross_entropy :=
    T_mean1 (T_sum_axis1
      (ew_mm Rplus
         (ew_mm Rmult (input self) (map_m (fun x => ln (Rsigmoid x)) pre_sigmoid_nv))
         (ew_mm Rmult (map_m (fun x => 1 - x) (input self))
                      (map_m (fun x => ln (1 - Rsigmoid x)) pre_sigmoid_nv)))) in
  cross_entropy.

(** ** The Gibbs chain and the update step *)

(** [theano.scan(fn, outputs_info=[None]*5 + [h] + [None]*2 + [l], n_steps)]
    calls [fn] once, on the two initial states, to build the graph of one
    step, whatever [n_steps]: what Python does in [fn] (the draws of the numpy
    generator, an exception) happens in this call.  The loop that the graph
    computes repeats the step [n_steps] times; the sixth and the ninth output
    of a step are the inputs of the next one, and every repetition uses the
    numpy values of the one call, that is, finds the numpy generator as that
    call found it. *)
Fixpoint scan_loop (fn : mat R -> mat R -> M (list (mat R))) (numpy_state : stream)
  (n_steps : nat) (h l : mat R) (theano_state : stream)
  : result (list (list (mat R)) * stream) :=
  match n_steps with
  | O => Ok ([], theano_state)
  | S n' =>
      let? (out, g1) := fn h l {| theano_rng := theano_state;
                                  numpy_rng := numpy_state |} in
      let? (rest, theano_state') :=
        scan_loop fn numpy_state n' (nth 5 out []) (nth 8 out []) (theano_rng g1) in
      Ok (out :: rest, theano_state')
  end.

Definition scan (fn : mat R -> mat R -> M (list (mat R))) (n_steps : nat)
  (h l : mat R) : M (list (list (mat R))) :=
  fun g =>
    let? (_, g_built) := fn h l g in
    let? (steps, theano_state) :=
      scan_loop fn (numpy_rng g) n_steps h l (theano_rng g) in
    Ok (steps, {| theano_rng := theano_state; numpy_rng := numpy_rng g_built |}).

(** The sequence of the [idx]-th output over the steps. *)
Definition scan_output (steps : list (list (mat R))) (idx : nat) : list (mat R) :=
  map (fun out => nth idx out []) steps.

Definition chain_seeds (self : DRBM R) (persistent neglab : option (mat R))
  (ph_sample : mat R) : mat R * mat R :=
  let chain_start :=
    match persistent with
    | None => ph_sample
    | Some p => p
    end in
  let chain_lab_start :=
    match neglab with
    | None => input_label self
    | Some n => n
    end in
  (chain_start, chain_lab_start).

(** The gradients of [get_cost_updates]:
    [T.grad(cost, self.params, consider_constant=[chain_end])]; the label
    sample at the end of the chain is a shared variable of its own. *)
Definition gparams (self : DRBM R) (chain_end chain_end_labels : mat R)
  (batch_size : nat) : result (list tensor) :=
  T_grad (fun K _ s ce => cost s ce (map (map const) chain_end_labels) batch_size)
         self chain_end params.

(** What [get_cost_updates] does once [theano.scan] has returned. *)
Definition finish_updates (self : DRBM R) (lr : R) (persistent : option (mat R))
  (batch_size : nat) (steps : list (list (mat R))) : result (R * dict) :=
  let updates : dict := [] in
  let pre_sigmoid_nvs := scan_output steps 0 in
  let nv_samples := scan_output steps 2 in
  let nh_samples := scan_output steps 5 in
  let lh_samples := scan_output steps 8 in
  let chain_end := subtensor_last nv_samples in
  let chain_end_labels := subtensor_last lh_samples in
  let? cost := cost self chain_end chain_end_labels batch_size in
  let? gparams := gparams self chain_end chain_end_labels batch_size in
  let updates :=
    fold_left (fun u gp => dict_set u (snd gp) (descend (value self (snd gp)) (fst gp) lr))
              (combine gparams params) updates in
  match persistent with
  | Some p =>
      let updates := dict_set updates spersistent (TMat (subtensor_last nh_samples)) in
      let? monitoring := get_pseudo_likelihood_cost self updates in
      Ok monitoring
  | None =>
      let monitoring_cost :=
        get_reconstruction_cost self updates (subtensor_last pre_sigmoid_nvs) in
      Ok (monitoring_cost, updates)
  end.

Definition get_cost_updates (self : DRBM R) (lr : R) (persistent neglab : option (mat R))
  (k batch_size : nat) : M (R * dict) :=
  '(pre_sigmoid_ph, ph_mean, ph_sample) <-
     sample_h_given_v self (input self) (input_label self) ;;
  let '(chain_start, chain_lab_start) := chain_seeds self persistent neglab ph_sample in
  steps <- scan (gibbs_hvh self) k chain_start chain_lab_start ;;
  lift (finish_updates self lr persistent batch_size steps).

(** ** Construction *)

Definition uniform (low high u : R) : R := low + (high - low) * u.

(** [numpy_rng.uniform(low, high, size=(rows, cols))] *)
Definition numpy_uniform (low high : R) (rows cols : nat) : M (mat R) :=
  m <- rand rows cols ;;
  ret (map_m (uniform low high) m).

(** [DRBM.__init__].  The two generators the constructor creates when none is
    passed are parameters: [RandomState_1234] is [numpy.random.RandomState(1234)]
    and [RandomStreams] maps the seed drawn by [randint] to a generator. *)
Definition DRBM_init (RandomState_1234 : stream) (RandomStreams : R -> stream)
  (input input_label : mat R) (n_visible n_hidden n_label : nat)
  (U W : option (mat R)) (labbias hbias vbias : option (vec R))
  (numpy_rng theano_rng : option stream) (alpha : R) : result (DRBM R * rng) :=
  let numpy_rng :=
    match numpy_rng with
    | None => RandomState_1234
    | Some g => g
    end in
  let g0 :=
    match theano_rng with
    | None => {| theano_rng := RandomStreams (numpy_rng 0%nat);
                 numpy_rng := drop 1 numpy_rng |}
    | Some t => {| theano_rng := t; numpy_rng := numpy_rng |}
    end in
  (U <- match U with
        | None =>
            numpy_uniform (-4 * sqrt (6 / INR (n_visible + n_label)))
                          (4 * sqrt (6 / INR (n_visible + n_label)))
                          n_label n_hidden
        | Some u => ret u
        end ;;
   W <- match W with
        | None =>
            numpy_uniform (-4 * sqrt (6 / INR (n_hidden + n_visible)))
                          (4 * sqrt (6 / INR (n_hidden + n_visible)))
                          n_visible n_hidden
        | Some w => ret w
        end ;;
   let hbias := match hbias with None => zeros1 n_hidden | Some b => b end in
   let vbias := match vbias with None => zeros1 n_visible | Some b => b end in
   let labbias := match labbias with None => zeros1 n_label | Some b => b end in
   ret {| n_visible := n_visible; n_hidden := n_hidden; n_label := n_label;
          alpha := alpha; input := input; input_label := input_label;
          U := U; W := W; hbias := hbias; vbias := vbias; labbias := labbias |}) g0.

(** * Properties *)

(** ** Lists and sums *)

Lemma map_seq_nth {A : Type} (l : list A) (d : A) :
  map (fun j => nth j l d) (seq 0 (length l)) = l.
Proof.
  induction l as [|a l IH]; simpl; [reflexivity|].
  f_equal. rewrite <- seq_shift, map_map. exact IH.
Qed.

Lemma map2_length {A B C : Type} (f : A -> B -> C) (l : list A) (l' : list B) :
  length (map2 f l l') = Nat.min (length l) (length l').
Proof.
  revert l'; induction l as [|a l IH]; intros [|b l']; simpl; auto.
Qed.

Lemma map2_nth_seq {A B C : Type} (f : A -> B -> C) (da : A) (db : B)
  (l : list A) (l' : list B) :
  length l = length l' ->
  map2 f l l' = map (fun k => f (nth k l da) (nth k l' db)) (seq 0 (length l)).
Proof.
  revert l'; induction l as [|a l IH]; intros [|b l'] Hlen; simpl in *;
    try discriminate; [reflexivity|].
  f_equal. rewrite <- seq_shift, map_map. apply IH. lia.
Qed.

Section Sums.
Context {K : Type} `{Scalar K}.

(** The sum of [f j] for [j] from 0 to [n - 1]. *)
Definition bigsum (n : nat) (f : nat -> K) : K := vsum (map f (seq 0 n)).

Definition entry (m : mat K) (i j : nat) : K := nth j (nth i m []) (const 0).

Definition shape (m : mat K) (r c : nat) : Prop :=
  length m = r /\ Forall (fun row => length row = c) m.

Lemma bigsum_ext (n : nat) (f g : nat -> K) :
  (forall j, (j < n)%nat -> f j = g j) -> bigsum n f = bigsum n g.
Proof.
  intros E. unfold bigsum. f_equal. apply map_ext_in.
  intros j Hj. apply in_seq in Hj. apply E. lia.
Qed.

Lemma vsum_bigsum (l : vec K) :
  vsum l = bigsum (length l) (fun j => nth j l (const 0)).
Proof. unfold bigsum. now rewrite map_seq_nth. Qed.

Lemma vdot_bigsum (x y : vec K) :
  length x = length y ->
  vdot x y = bigsum (length x) (fun k => mul (nth k x (const 0)) (nth k y (const 0))).
Proof.
  intros E. unfold vdot, bigsum.
  now rewrite (map2_nth_seq mul (const 0) (const 0) x y E).
Qed.

Lemma nth_column (m : mat K) (j k : nat) :
  nth k (column m j) (const 0) = entry m k j.
Proof.
  unfold column, entry.
  rewrite <- (map_nth (fun r => nth j r (const 0)) m [] k).
  destruct j; reflexivity.
Qed.

Lemma transpose_shape (m : mat K) (r c : nat) :
  shape m r c -> (0 < r)%nat -> transpose m = map (column m) (seq 0 c).
Proof.
  intros [Hr Hc] Hpos. destruct m as [|row m]; simpl in *; [lia|].
  inversion Hc; subst. reflexivity.
Qed.

(** Entry [j] of a row of [T.dot(a, b)]. *)
Lemma dot_row_nth (row : vec K) (b : mat K) (r c j : nat) :
  shape b r c -> (0 < r)%nat -> length row = r -> (j < c)%nat ->
  nth j (map (vdot row) (transpose b)) (const 0)
  = bigsum r (fun k => mul (nth k row (const 0)) (entry b k j)).
Proof.
  intros Hb Hpos Hrow Hj.
  rewrite (transpose_shape b r c Hb Hpos), map_map.
  rewrite (nth_indep _ (const 0) (vdot row (column b 0)))
    by (rewrite length_map, length_seq; exact Hj).
  rewrite (map_nth (fun x => vdot row (column b x)) (seq 0 c) 0%nat j).
  rewrite seq_nth by exact Hj. simpl.
  rewrite vdot_bigsum by (unfold column; rewrite length_map; destruct Hb; lia).
  rewrite Hrow. apply bigsum_ext. intros k _. now rewrite nth_column.
Qed.

Lemma dot_row_length (row : vec K) (b : mat K) (r c : nat) :
  shape b r c -> (0 < r)%nat -> length (map (vdot row) (transpose b)) = c.
Proof.
  intros Hb Hpos. rewrite (transpose_shape b r c Hb Hpos).
  now rewrite !length_map, length_seq.
Qed.
End Sums.

Lemma map2_nth {A B C : Type} (f : A -> B -> C) (da : A) (db : B) (dc : C)
  (l : list A) (l' : list B) (k : nat) :
  (k < length l)%nat -> (k < length l')%nat ->
  nth k (map2 f l l') dc = f (nth k l da) (nth k l' db).
Proof.
  revert l' k; induction l as [|a l IH]; intros [|b l'] [|k] Hk Hk'; simpl in *;
    try lia; [reflexivity|].
  apply IH; lia.
Qed.

(** ** The free energy *)

Section FreeEnergy.
Context {K : Type} `{Scalar K}.
Variable self : DRBM K.

(** The free energy of one row as the specification writes it:
    minus the sum over the hidden units j of
    softplus(hbias_j + (v.W)_j + (label.U)_j), minus label.labbias. *)
Definition free_energy_row_spec (v lab : vec K) : K :=
  sub (neg (bigsum (n_hidden self) (fun j =>
         softplus (add (add (nth j (hbias self) (const 0))
                            (bigsum (n_visible self) (fun i =>
                               mul (nth i v (const 0)) (entry (W self) i j))))
                       (bigsum (n_label self) (fun y =>
                          mul (nth y lab (const 0)) (entry (U self) y j)))))))
      (bigsum (n_label self) (fun y =>
         mul (nth y lab (const 0)) (nth y (labbias self) (const 0)))).

(** The same row as the source computes it. *)
Definition free_energy_row (v lab : vec K) : K :=
  sub (neg (vsum (map softplus
         (map2 add (map2 add (map (vdot v) (transpose (W self))) (hbias self))
                   (map (vdot lab) (transpose (U self)))))))
      (vdot lab (labbias self)).

Lemma free_energy_rows (v lab : mat K) :
  free_energy self v lab = map2 free_energy_row v lab.
Proof.
  unfold free_energy, ew_vv, T_sum_axis1, map_m, ew_mm, ew_mv, T_dot, T_dot_mv.
  revert lab; induction v as [|vi v IH]; intros [|li lab]; simpl; try reflexivity.
  f_equal. apply IH.
Qed.

Hypothesis add_comm : forall a b : K, add a b = add b a.
Hypothesis W_shape : shape (W self) (n_visible self) (n_hidden self).
Hypothesis U_shape : shape (U self) (n_label self) (n_hidden self).
Hypothesis hbias_length : length (hbias self) = n_hidden self.
Hypothesis labbias_length : length (labbias self) = n_label self.
Hypothesis visible_pos : (0 < n_visible self)%nat.
Hypothesis label_pos : (0 < n_label self)%nat.

Lemma free_energy_row_correct (v lab : vec K) :
  length v = n_visible self -> length lab = n_label self ->
  free_energy_row v lab = free_energy_row_spec v lab.
Proof.
  intros Hv Hl. unfold free_energy_row, free_energy_row_spec.
  pose proof (dot_row_length v _ _ _ W_shape visible_pos) as LW.
  pose proof (dot_row_length lab _ _ _ U_shape label_pos) as LU.
  f_equal.
  - f_equal. rewrite vsum_bigsum, length_map, !map2_length, LW, LU, hbias_length.
    rewrite !Nat.min_id. apply bigsum_ext. intros j Hj.
    rewrite (nth_indep _ (const 0) (softplus (const 0)))
      by (rewrite length_map, !map2_length, LW, LU, hbias_length, !Nat.min_id; exact Hj).
    rewrite map_nth. f_equal.
    rewrite (map2_nth add (const 0) (const 0))
      by (rewrite ?map2_length, ?LW, ?LU, ?hbias_length, ?Nat.min_id; exact Hj).
    rewrite (map2_nth add (const 0) (const 0))
      by (rewrite ?LW, ?hbias_length; exact Hj).
    rewrite (dot_row_nth v _ _ _ j W_shape visible_pos Hv Hj).
    rewrite (dot_row_nth lab _ _ _ j U_shape label_pos Hl Hj).
    f_equal. apply add_comm.
  - rewrite vdot_bigsum by lia. now rewrite Hl.
Qed.

(** C2. For every visible batch and label batch (rows of [n_visible] and of
    [n_label] entries), [free_energy] returns for each row minus the sum over
    the hidden units of softplus(hbias_j + (v.W)_j + (label.U)_j) minus
    label.labbias.  The statement holds for every scalar type and every
    [softplus] on it: the value is built from the softplus primitive, never
    from a logarithm of an exponential. *)
Theorem free_energy_softplus_formula (v lab : mat K) :
  Forall (fun r => length r = n_visible self) v ->
  Forall (fun r => length r = n_label self) lab ->
  length v = length lab ->
  free_energy self v lab = map2 free_energy_row_spec v lab
  /\ length (free_energy self v lab) = length v.
Proof.
  intros Hv Hl Hlen. rewrite free_energy_rows. unfold mat, vec in *. split.
  - revert lab Hl Hlen. induction Hv as [|vi v Hvi Hv IH]; intros [|li lab] Hl Hlen;
      simpl in *; try discriminate; [reflexivity|].
    inversion Hl; subst. f_equal.
    + now apply free_energy_row_correct.
    + apply IH; [assumption | now injection Hlen].
  - rewrite map2_length, <- Hlen. apply Nat.min_id.
Qed.
End FreeEnergy.

(** ** Construction *)

Lemma uniform_bounds (low high u : R) :
  low <= high -> 0 <= u < 1 -> low <= uniform low high u <= high.
Proof. unfold uniform. intros Hb [H0 H1]. split; nra. Qed.

Definition zero_stream : stream := fun _ => 0.

(** The generator state in which the constructor starts drawing weights. *)
Definition init_rng (RandomState_1234 : stream) (RandomStreams : R -> stream)
  (numpy_rng theano_rng : option stream) : rng :=
  let numpy_rng := match numpy_rng with None => RandomState_1234 | Some g => g end in
  match theano_rng with
  | None => {| theano_rng := RandomStreams (numpy_rng 0%nat); numpy_rng := drop 1 numpy_rng |}
  | Some t => {| theano_rng := t; numpy_rng := numpy_rng |}
  end.

Lemma rand_rows_head (r c : nat) (s : stream) :
  exists tl rest, fst (rand_rows (S r) (S c) s) = (s 0%nat :: tl) :: rest.
Proof.
  cbn [rand_rows]. destruct (rand_rows r (S c) (drop (S c) s)) as [rest s'].
  exists (map s (seq 1 c)), rest. reflexivity.
Qed.

(** The model and the generator state that the constructor returns for
    default tensors. *)
Lemma init_default RS RSt inp lab nv nh nl numpy_gen theano_gen a :
  let g0 := init_rng RS RSt numpy_gen theano_gen in
  let bound_U := 4 * sqrt (6 / INR (nv + nl)) in
  let bound_W := 4 * sqrt (6 / INR (nh + nv)) in
  let draws_U := rand_rows nl nh (numpy_rng g0) in
  let draws_W := rand_rows nv nh (snd draws_U) in
  DRBM_init RS RSt inp lab nv nh nl None None None None None numpy_gen theano_gen a
  = Ok ({| n_visible := nv; n_hidden := nh; n_label := nl;
           alpha := a; input := inp; input_label := lab;
           U := map_m (uniform (- bound_U) bound_U) (fst draws_U);
           W := map_m (uniform (- bound_W) bound_W) (fst draws_W);
           hbias := repeat 0 nh;
           vbias := repeat 0 nv;
           labbias := repeat 0 nl |},
        {| theano_rng := theano_rng g0; numpy_rng := snd draws_W |}).
Proof.
  intros g0 bound_U bound_W draws_U draws_W.
  unfold DRBM_init. fold (init_rng RS RSt numpy_gen theano_gen). fold g0.
  unfold bind, numpy_uniform, bind, rand, ret. simpl.
  subst draws_W. fold draws_U.
  destruct draws_U as [mU sU]. simpl.
  destruct (rand_rows nv nh sU) as [mW sW']. simpl.
  unfold bound_U, bound_W.
  replace (-4 * sqrt (6 / INR (nv + nl)))
    with (- (4 * sqrt (6 / INR (nv + nl)))) by ring.
  replace (-4 * sqrt (6 / INR (nh + nv)))
    with (- (4 * sqrt (6 / INR (nh + nv)))) by ring.
  reflexivity.
Qed.

(** C5. With default (None) tensors the constructor draws U, of n_label rows,
    from the uniform draws scaled to plus or minus
    4 sqrt(6 / (n_visible + n_label)), then W, of n_visible rows, from the
    following draws scaled to plus or minus 4 sqrt(6 / (n_hidden + n_visible)),
    and sets the three biases to zero.  The bound of U is not
    4 sqrt(6 / (n_label + n_hidden)): with the sizes 784, 500 and 2 and any
    two generators, the first entry of U is the first draw scaled to plus or
    minus 4 sqrt(6 / 786), a bound strictly below 4 sqrt(6 / 502). *)
Theorem init_default_weights :
  (forall RS RSt inp lab nv nh nl numpy_gen theano_gen a,
     let g0 := init_rng RS RSt numpy_gen theano_gen in
     let bound_U := 4 * sqrt (6 / INR (nv + nl)) in
     let bound_W := 4 * sqrt (6 / INR (nh + nv)) in
     let draws_U := rand_rows nl nh (numpy_rng g0) in
     let draws_W := rand_rows nv nh (snd draws_U) in
     DRBM_init RS RSt inp lab nv nh nl None None None None None numpy_gen theano_gen a
     = Ok ({| n_visible := nv; n_hidden := nh; n_label := nl;
              alpha := a; input := inp; input_label := lab;
              U := map_m (uniform (- bound_U) bound_U) (fst draws_U);
              W := map_m (uniform (- bound_W) bound_W) (fst draws_W);
              hbias := repeat 0 nh;
              vbias := repeat 0 nv;
              labbias := repeat 0 nl |},
           {| theano_rng := theano_rng g0; numpy_rng := snd draws_W |}))
  /\ (forall RS RSt inp lab (s t : stream) a,
        match DRBM_init RS RSt inp lab 784 500 2
                        None None None None None (Some s) (Some t) a with
        | Ok (self, _) =>
            entry (U self) 0 0
            = uniform (- (4 * sqrt (6 / INR (784 + 2)))) (4 * sqrt (6 / INR (784 + 2)))
                      (s 0%nat)
            /\ 4 * sqrt (6 / INR (784 + 2)) < 4 * sqrt (6 / INR (2 + 500))
        | Raise _ => False
        end).
Proof.
  split; [exact init_default|].
  intros. rewrite init_default. cbv zeta. cbv beta iota delta [U].
  split.
  - unfold init_rng. cbv beta iota delta [numpy_rng].
    destruct (rand_rows_head 1 499 s) as (tl & rest & E). rewrite E. reflexivity.
  - rewrite !INR_IZR_INZ.
    replace (Z.of_nat (784 + 2)) with 786%Z by (vm_compute; reflexivity).
    replace (Z.of_nat (2 + 500)) with 502%Z by (vm_compute; reflexivity).
    apply Rmult_lt_compat_l; [lra|]. apply sqrt_lt_1; lra.
Qed.

(** ** Concrete models *)

(** A model that holds a batch of two rows labelled with the first class, a
    hidden batch of 25 rows and a generator whose draws are all 0. *)
Definition two_rows : DRBM R :=
  {| n_visible := 1; n_hidden := 1; n_label := 2; alpha := 1 / 100;
     input := [[0]; [0]]; input_label := [[1; 0]; [1; 0]];
     U := [[0]; [0]]; W := [[0]]; hbias := [0]; vbias := [0]; labbias := [0; 0] |}.
Definition hidden_25 : mat R := repeat [0] 25.
Definition zero_rng : rng := {| theano_rng := zero_stream; numpy_rng := zero_stream |}.

(** A batch of two rows with one-hot labels on a model with two hidden units. *)
Definition two_by_two : DRBM R :=
  {| n_visible := 1; n_hidden := 2; n_label := 2; alpha := 1 / 100;
     input := [[0]; [0]]; input_label := [[1; 0]; [0; 1]];
     U := [[0; 0]; [0; 0]]; W := [[0; 0]]; hbias := [0; 0]; vbias := [0];
     labbias := [0; 0] |}.

Lemma free_energy_softplus_formula_witness :
  free_energy two_rows [[1]] [[1; 0]]
  = map2 (free_energy_row_spec two_rows) [[1]] [[1; 0]]
  /\ length (free_energy two_rows [[1]] [[1; 0]]) = 1%nat.
Proof.
  apply (@free_energy_softplus_formula R Scalar_R two_rows Rplus_comm).
  - split; [reflexivity | repeat constructor].
  - split; [reflexivity | repeat constructor].
  - reflexivity.
  - reflexivity.
  - simpl; lia.
  - simpl; lia.
  - repeat constructor.
  - repeat constructor.
  - reflexivity.
Defined.

(** ** The label sampler *)

Lemma getitem_lt {A : Type} (l : list A) (i : nat) (d : A) :
  (i < length l)%nat -> getitem l i = Ok (nth i l d).
Proof.
  intros Hi. unfold getitem.
  destruct (nth_error l i) as [x|] eqn:E.
  - f_equal. symmetry. now apply nth_error_nth.
  - apply nth_error_None in E. lia.
Qed.

Lemma rand_rows_length (rows cols : nat) (s : stream) :
  length (fst (rand_rows rows cols s)) = rows.
Proof.
  revert s; induction rows as [|rows IH]; intros s; simpl; [reflexivity|].
  specialize (IH (drop cols s)).
  destruct (rand_rows rows cols (drop cols s)) as [rest s']. simpl in *.
  now rewrite IH.
Qed.

(** The comparison of a draw with a symbolic row of cumulative sums. *)
Lemma label_index_TensorVariable (xx1_jj xx_jj : list R) :
  label_index xx1_jj (TensorVariable xx_jj) = Raise TypeError.
Proof. reflexivity. Qed.

(** On numpy arrays the same expression selects an index: for the
    probability row [0.2, 0.8] a draw of 0.1 gives 0 and a draw of 0.9
    gives 1. *)
Lemma label_index_ndarray :
  label_index [1 / 10] (ndarray (cumsum [2 / 10; 8 / 10])) = Ok 0%nat
  /\ label_index [9 / 10] (ndarray (cumsum [2 / 10; 8 / 10])) = Ok 1%nat.
Proof.
  split; unfold label_index, numpy_less_equal, cumsum, where_, Rle_bool;
    simpl.
  - destruct (Rle_dec (1 / 10) (0 + 2 / 10)); [|lra].
    destruct (Rle_dec (1 / 10) (0 + 2 / 10 + 8 / 10)); [|lra].
    reflexivity.
  - destruct (Rle_dec (9 / 10) (0 + 2 / 10)); [lra|].
    destruct (Rle_dec (9 / 10) (0 + 2 / 10 + 8 / 10)); [|lra].
    reflexivity.
Qed.

(** The loop stops at the first row it visits. *)
Lemma neg_labs_loop_raises (xx xx1 neg_labs : mat R) (jj : nat) (rest : list nat) :
  (jj < length xx1)%nat ->
  neg_labs_loop xx xx1 neg_labs (jj :: rest) = Raise TypeError.
Proof.
  intros Hjj. cbn [neg_labs_loop]. unfold mat, vec in *.
  rewrite (getitem_lt xx1 jj [] Hjj). reflexivity.
Qed.

Lemma sample_lab_given_h_TypeError (self : DRBM R) (h : mat R) (g : rng) :
  sample_lab_given_h self h g = Raise TypeError.
Proof.
  unfold sample_lab_given_h.
  destruct (propdown_label self h) as [pre mean].
  unfold bind, rand, lift.
  pose proof (rand_rows_length 20 1 (numpy_rng g)) as L.
  destruct (rand_rows 20 1 (numpy_rng g)) as [xx1 s']. cbn [fst] in L.
  change (seq 0 20) with (0%nat :: seq 1 19).
  rewrite neg_labs_loop_raises by (unfold mat, vec in *; lia).
  reflexivity.
Qed.

(** C8. The label sampler forms the cumulative sums of the probability rows
    with [theano.tensor.extra_ops.cumsum], a Theano variable, draws one
    uniform number per row with numpy and looks for the smallest index whose
    cumulative sum reaches the draw with numpy functions: on the symbolic row
    the index expression raises TypeError, whatever the draw and the row, and
    [sample_lab_given_h] raises TypeError for every model, hidden sample and
    generator state; no index is selected. *)
Theorem label_index_raises_on_symbolic_cumsum :
  (forall xx1_jj xx_jj, label_index xx1_jj (TensorVariable xx_jj) = Raise TypeError)
  /\ (forall xx1_jj self h jj,
        label_index xx1_jj
          (TensorVariable (subtensor (map cumsum (snd (propdown_label self h))) jj))
        = Raise TypeError)
  /\ forall self h g, sample_lab_given_h self h g = Raise TypeError.
Proof.
  split; [|split].
  - apply label_index_TensorVariable.
  - intros. apply label_index_TensorVariable.
  - apply sample_lab_given_h_TypeError.
Qed.

(** C10. [sample_lab_given_h] returns no label sample: the loop over the 20
    rows of the array of zeros stops with TypeError at row 0, before an entry
    is set, for every model, every hidden sample (of 25 rows as of any other
    number) and every generator state. *)
Theorem sample_lab_given_h_returns_no_sample (self : DRBM R) (h : mat R) (g : rng) :
  (forall xx,
     neg_labs_loop xx (fst (rand_rows 20 1 (numpy_rng g)))
                   (zeros2 20 (n_label self)) (seq 0 20)
     = Raise TypeError)
  /\ (forall r, sample_lab_given_h self h g <> Ok r)
  /\ sample_lab_given_h two_rows hidden_25 zero_rng = Raise TypeError.
Proof.
  split; [|split].
  - intros xx. change (seq 0 20) with (0%nat :: seq 1 19).
    apply neg_labs_loop_raises. rewrite rand_rows_length. lia.
  - intros r. rewrite sample_lab_given_h_TypeError. discriminate.
  - apply sample_lab_given_h_TypeError.
Qed.

(** ** The Gibbs steps *)

Lemma sample_v_given_h_run (self : DRBM R) (h0 : mat R) (g : rng) :
  sample_v_given_h self h0 g =
  let pre_v := ew_mv add (T_dot h0 (transpose (W self))) (vbias self) in
  let v_mean := map_m sigmoid pre_v in
  Ok (pre_v, v_mean, fst (binomial_rows v_mean (theano_rng g)),
      {| theano_rng := snd (binomial_rows v_mean (theano_rng g));
         numpy_rng := numpy_rng g |}).
Proof.
  unfold sample_v_given_h, propdown, bind, binomial, ret. cbv zeta.
  now destruct (binomial_rows _ _).
Qed.

Lemma sample_h_given_v_run (self : DRBM R) (v l : mat R) (g : rng) :
  sample_h_given_v self v l g =
  let pre_h := ew_mm add (ew_mv add (T_dot v (W self)) (hbias self)) (T_dot l (U self)) in
  let h_mean := map_m sigmoid pre_h in
  Ok (pre_h, h_mean, fst (binomial_rows h_mean (theano_rng g)),
      {| theano_rng := snd (binomial_rows h_mean (theano_rng g));
         numpy_rng := numpy_rng g |}).
Proof.
  unfold sample_h_given_v, propup, bind, binomial, ret. cbv zeta.
  now destruct (binomial_rows _ _).
Qed.

Lemma gibbs_hvh_TypeError (self : DRBM R) (h0 l0 : mat R) (g : rng) :
  gibbs_hvh self h0 l0 g = Raise TypeError.
Proof.
  unfold gibbs_hvh, bind.
  rewrite sample_v_given_h_run. cbv beta iota zeta.
  rewrite sample_h_given_v_run. cbv beta iota zeta.
  now rewrite sample_lab_given_h_TypeError.
Qed.

(** The seeds of a step have the shapes of the model: rows of [n_hidden] and
    of [n_label] entries, as many of the one as of the other, and parameters
    of the sizes of the model. *)
Definition conforming (self : DRBM R) (h0 l0 : mat R) : Prop :=
  shape (W self) (n_visible self) (n_hidden self)
  /\ shape (U self) (n_label self) (n_hidden self)
  /\ length (hbias self) = n_hidden self
  /\ length (vbias self) = n_visible self
  /\ Forall (fun r => length r = n_hidden self) h0
  /\ Forall (fun r => length r = n_label self) l0
  /\ length h0 = length l0.

(** C3. A [gibbs_hvh] step raises TypeError for every model, pair of seeds
    and generator state, and returns none of the nine tensors: its third
    stage, [sample_lab_given_h], raises TypeError on every hidden sample.  On
    seeds of the shapes of the model the first two stages run before it: a
    visible is sampled from h0 (pre-activation h0.W^T + vbias), then a hidden
    from that visible sample and the old label l0 (pre-activation
    v.W + hbias + l0.U). *)
Theorem gibbs_hvh_label_stage_raises (self : DRBM R) (h0 l0 : mat R) (g : rng) :
  gibbs_hvh self h0 l0 g = Raise TypeError
  /\ (forall h1_sample g2, sample_lab_given_h self h1_sample g2 = Raise TypeError)
  /\ (conforming self h0 l0 ->
      exists pre_v v_mean v_sample g1 pre_h h_mean h_sample g2,
        sample_v_given_h self h0 g = Ok (pre_v, v_mean, v_sample, g1)
        /\ pre_v = ew_mv add (T_dot h0 (transpose (W self))) (vbias self)
        /\ sample_h_given_v self v_sample l0 g1 = Ok (pre_h, h_mean, h_sample, g2)
        /\ pre_h = ew_mm add (ew_mv add (T_dot v_sample (W self)) (hbias self))
                             (T_dot l0 (U self))).
Proof.
  split; [apply gibbs_hvh_TypeError|].
  split; [intros; apply sample_lab_given_h_TypeError|].
  intros _.
  rewrite sample_v_given_h_run. cbv beta iota zeta.
  do 4 eexists.
  rewrite sample_h_given_v_run. cbv beta iota zeta.
  do 4 eexists.
  split; [reflexivity|]. split; [reflexivity|]. split; reflexivity.
Qed.

Lemma gibbs_hvh_label_stage_raises_witness :
  gibbs_hvh two_rows [[0]; [0]] [[1; 0]; [1; 0]] zero_rng = Raise TypeError
  /\ conforming two_rows [[0]; [0]] [[1; 0]; [1; 0]]
  /\ exists pre_v v_mean v_sample g1 pre_h h_mean h_sample g2,
       sample_v_given_h two_rows [[0]; [0]] zero_rng = Ok (pre_v, v_mean, v_sample, g1)
       /\ pre_v = ew_mv add (T_dot [[0]; [0]] (transpose (W two_rows))) (vbias two_rows)
       /\ sample_h_given_v two_rows v_sample [[1; 0]; [1; 0]] g1
          = Ok (pre_h, h_mean, h_sample, g2)
       /\ pre_h = ew_mm add (ew_mv add (T_dot v_sample (W two_rows)) (hbias two_rows))
                            (T_dot [[1; 0]; [1; 0]] (U two_rows)).
Proof.
  assert (C : conforming two_rows [[0]; [0]] [[1; 0]; [1; 0]]).
  { unfold conforming, shape. simpl. repeat split; repeat constructor. }
  destruct (gibbs_hvh_label_stage_raises two_rows [[0]; [0]] [[1; 0]; [1; 0]] zero_rng)
    as (H1 & _ & H3).
  split; [exact H1|]. split; [exact C|]. exact (H3 C).
Defined.

(** C7. [gibbs_vhv] calls [sample_h_given_v] with the visible sample alone,
    although the method requires a visible and a label sample (a call with
    both is accepted): for every visible batch and every generator state the
    step raises TypeError, and no hidden, visible or label sample is
    produced. *)
Theorem gibbs_vhv_raises (self : DRBM R) (v0_sample : mat R) (g : rng) :
  gibbs_vhv self v0_sample g = Raise TypeError
  /\ call2 (sample_h_given_v self) [v0_sample] = Raise TypeError
  /\ forall l0_sample,
       call2 (sample_h_given_v self) [v0_sample; l0_sample]
       = Ok (sample_h_given_v self v0_sample l0_sample).
Proof.
  split; [|split].
  - unfold gibbs_vhv, bind, lift, call2. reflexivity.
  - unfold call2. reflexivity.
  - intros l0_sample. unfold call2. reflexivity.
Qed.

(** ** The seeds of the negative chain *)


(** ** The method [get_cost_updates] *)

Lemma scan_gibbs_hvh_TypeError (self : DRBM R) (n_steps : nat) (h l : mat R) (g : rng) :
  scan (gibbs_hvh self) n_steps h l g = Raise TypeError.
Proof. unfold scan. now rewrite gibbs_hvh_TypeError. Qed.

Lemma get_cost_updates_TypeError (self : DRBM R) (lr : R)
  (persistent neglab : option (mat R)) (k batch_size : nat) (g : rng) :
  get_cost_updates self lr persistent neglab k batch_size g = Raise TypeError.
Proof.
  unfold get_cost_updates, bind.
  rewrite sample_h_given_v_run. cbv beta iota zeta.
  unfold chain_seeds. cbv beta iota zeta.
  now rewrite scan_gibbs_hvh_TypeError.
Qed.

(** ** Monitoring in persistent mode *)

Lemma get_pseudo_likelihood_cost_raises (self : DRBM R) (updates : dict) :
  get_pseudo_likelihood_cost self updates = Raise TypeError.
Proof. reflexivity. Qed.

(** C9. In persistent mode the monitoring cost of [get_cost_updates] is that
    of [get_pseudo_likelihood_cost], whose two calls of [free_energy] pass the
    visible tensor without a label tensor: the pseudo-likelihood raises
    TypeError for every model and every update dictionary, and a call with a
    persistent buffer never returns a monitoring cost or an update
    dictionary. *)
Theorem get_cost_updates_persistent_raises (self : DRBM R) (lr : R)
  (buffer : mat R) (neglab : option (mat R)) (k batch_size : nat) (g : rng) :
  (forall updates, get_pseudo_likelihood_cost self updates = Raise TypeError)
  /\ exists e, get_cost_updates self lr (Some buffer) neglab k batch_size g = Raise e.
Proof.
  split; [intros; apply get_pseudo_likelihood_cost_raises|].
  exists TypeError. apply get_cost_updates_TypeError.
Qed.

(** ** The cost and its gradient *)

Section Prediction.
Context {K : Type} `{Scalar K}.

Lemma fill_slots_raises (precomputed_labs : list (mat K)) (rows cols : nat)
  (precomputed : mat K) (ii : nat) (rest : list nat) :
  fill_slots precomputed_labs rows cols (TensorVariable precomputed) (ii :: rest)
  = Raise ValueError.
Proof. reflexivity. Qed.

Lemma precompute_thingy_result (self : DRBM K) (v_sample : mat K) (batch_size : nat) :
  precompute_thingy self v_sample batch_size
  = if (n_label self =? 0)%nat then Ok [] else Raise ValueError.
Proof.
  unfold precompute_thingy. cbv zeta.
  destruct (n_label self) as [|n]; [reflexivity|].
  change (seq 0 (S n)) with (0%nat :: seq 1 n).
  now rewrite fill_slots_raises.
Qed.
End Prediction.

(** X4. [precompute_thingy] raises ValueError for every visible batch and
    every [batch_size] as soon as the model has a label: the first slot of
    the numpy array is assigned a Theano variable.  Without a label the loop
    does nothing and the empty array is returned as a shared variable. *)
Theorem precompute_thingy_raises (self : DRBM R) (v_sample : mat R) (batch_size : nat) :
  (forall labs rest,
     fill_slots labs batch_size (n_hidden self)
       (TensorVariable (precompute_a self v_sample)) (0%nat :: rest)
     = Raise ValueError)
  /\ precompute_thingy self v_sample batch_size
     = if (n_label self =? 0)%nat then Ok [] else Raise ValueError.
Proof.
  split.
  - intros labs rest. apply fill_slots_raises.
  - apply precompute_thingy_result.
Qed.

(** X5. On a model with at least one label [sample_y_given_x] raises
    ValueError for every visible batch and every [batch_size]: the error of
    [precompute_thingy], with which it starts.  No row of a label prediction
    is ever normalised. *)
Theorem sample_y_given_x_raises (self : DRBM R) (v_sample : mat R) (batch_size : nat) :
  (0 < n_label self)%nat ->
  sample_y_given_x self v_sample batch_size = Raise ValueError.
Proof.
  intros Hl. unfold sample_y_given_x. rewrite precompute_thingy_result.
  destruct (n_label self) as [|n]; [lia | reflexivity].
Qed.

Lemma sample_y_given_x_raises_witness :
  sample_y_given_x two_by_two [[0]; [0]] 2 = Raise ValueError.
Proof.
  apply (sample_y_given_x_raises two_by_two [[0]; [0]] 2). simpl. lia.
Defined.

(** C6. The discriminative cost is never computed.  The expression of the
    source, T.mean(T.sum(input_label - y_sampled)), is the sum of all the
    entries of the residual (its mean is the mean of one number, and nothing
    is divided by the batch size); and the label prediction [y_sampled] it
    needs is never obtained, because [sample_y_given_x] raises: on a model
    with at least one label the cost of [get_cost_updates] raises ValueError
    for every chain end and [batch_size], as on a batch of two rows with
    one-hot labels. *)
Theorem cost_raises_before_discriminative_term (self : DRBM R)
  (chain_end chain_end_labels : mat R) (batch_size : nat) :
  (forall y_sampled,
     cost_discriminative self y_sampled = T_sum (ew_mm sub (input_label self) y_sampled))
  /\ ((0 < n_label self)%nat ->
      cost self chain_end chain_end_labels batch_size = Raise ValueError)
  /\ cost two_by_two [[0]; [0]] [[1; 0]; [0; 1]] 2 = Raise ValueError.
Proof.
  assert (E : forall (s : DRBM R) ce cl bs,
             (0 < n_label s)%nat -> cost s ce cl bs = Raise ValueError).
  { intros s ce cl bs Hl. unfold cost, sample_y_given_x. cbv zeta.
    rewrite precompute_thingy_result.
    destruct (n_label s) as [|n]; [lia | reflexivity]. }
  split; [|split].
  - intros y. unfold cost_discriminative, T_mean0. simpl. field.
  - apply E.
  - apply E. simpl. lia.
Qed.

(** C1. The differentiate stage of [get_cost_updates] is never reached.
    [theano.scan] calls [gibbs_hvh] once to build the graph of a step,
    whatever the number of steps, and that call raises TypeError in the label
    sampler: [get_cost_updates] raises TypeError for every model, learning
    rate, pair of buffers, number of steps, batch size and generator state.
    The part of the method that follows the scan stops before [T.grad] as
    well, for every chain, on a model with at least one label: forming the
    cost raises ValueError in [sample_y_given_x].  No gradient is computed
    for any minibatch. *)
Theorem get_cost_updates_raises_before_gradient (self : DRBM R) (lr : R)
  (persistent neglab : option (mat R)) (k batch_size : nat) (g : rng) :
  get_cost_updates self lr persistent neglab k batch_size g = Raise TypeError
  /\ (forall h l, scan (gibbs_hvh self) k h l g = Raise TypeError)
  /\ ((0 < n_label self)%nat ->
      forall steps,
        finish_updates self lr persistent batch_size steps = Raise ValueError).
Proof.
  split; [apply get_cost_updates_TypeError|].
  split; [intros h l; apply scan_gibbs_hvh_TypeError|].
  intros Hl steps. unfold finish_updates. cbv zeta.
  unfold cost, sample_y_given_x. cbv zeta.
  rewrite precompute_thingy_result.
  destruct (n_label self) as [|n]; [lia | reflexivity].
Qed.

(** ** Means and the reconstruction cost *)

Lemma Rsigmoid_bounds (x : R) : 0 < Rsigmoid x < 1.
Proof.
  unfold Rsigmoid. pose proof (exp_pos (- x)) as He.
  split.
  - apply Rinv_0_lt_compat. lra.
  - rewrite <- Rinv_1. apply Rinv_lt_contravar; lra.
Qed.

Lemma Forall_map_m (P : R -> Prop) (f : R -> R) (m : mat R) :
  (forall x, P (f x)) -> Forall (Forall P) (map_m f m).
Proof.
  intros Hf. unfold map_m. apply Forall_forall. intros r Hr.
  apply in_map_iff in Hr. destruct Hr as (r0 & <- & _).
  apply Forall_forall. intros x Hx. apply in_map_iff in Hx.
  destruct Hx as (x0 & <- & _). apply Hf.
Qed.

Lemma Forall_map2 {A B C : Type} (P : A -> Prop) (Q : B -> Prop) (S : C -> Prop)
  (f : A -> B -> C) (l : list A) (l' : list B) :
  (forall a b, P a -> Q b -> S (f a b)) ->
  Forall P l -> Forall Q l' -> Forall S (map2 f l l').
Proof.
  intros Hf Hl. revert l'. induction Hl as [|a l Ha Hl IH]; intros l' Hl'; simpl.
  - constructor.
  - destruct Hl' as [|b l' Hb Hl']; constructor; auto.
Qed.

Lemma Forall_map_in {A B : Type} (P : A -> Prop) (Q : B -> Prop) (f : A -> B) (l : list A) :
  (forall a, P a -> Q (f a)) -> Forall P l -> Forall Q (map f l).
Proof. intros Hf Hl. induction Hl; simpl; constructor; auto. Qed.

Lemma vsum_nonpos (v : list R) : Forall (fun x => x <= 0) v -> vsum v <= 0.
Proof.
  unfold vsum. induction 1 as [|x v Hx Hv IH]; simpl in *; lra.
Qed.

Lemma ln_Rsigmoid_neg (x : R) : ln (Rsigmoid x) < 0 /\ ln (1 - Rsigmoid x) < 0.
Proof.
  pose proof (Rsigmoid_bounds x) as [H0 H1].
  split; rewrite <- ln_1; apply ln_increasing; lra.
Qed.

(** X8. For an input batch of at least one row whose entries lie between 0
    and 1, the reconstruction cross-entropy that [get_reconstruction_cost]
    returns is never positive, whatever the pre-activation. *)
Theorem get_reconstruction_cost_nonpositive (self : DRBM R) (updates : dict)
  (pre_sigmoid_nv : mat R) :
  input self <> [] ->
  Forall (Forall (fun x => 0 <= x <= 1)) (input self) ->
  get_reconstruction_cost self updates pre_sigmoid_nv <= 0.
Proof.
  intros Hne Hin. unfold get_reconstruction_cost. cbv zeta.
  unfold T_mean1. simpl.
  set (rows := T_sum_axis1 _).
  assert (Hrows : Forall (fun x => x <= 0) rows).
  { subst rows. unfold T_sum_axis1.
    apply (Forall_map_in (Forall (fun x => x <= 0))); [apply vsum_nonpos|].
    unfold ew_mm.
    apply (Forall_map2 (Forall (fun x => x <= 0)) (Forall (fun x => x <= 0))).
    - intros a b Ha Hb.
      apply (Forall_map2 (fun x => x <= 0) (fun x => x <= 0)); [|exact Ha | exact Hb].
      intros; lra.
    - apply (Forall_map2 (Forall (fun x => 0 <= x <= 1)) (Forall (fun x => x < 0)));
        [| exact Hin | apply Forall_map_m; intros x; apply ln_Rsigmoid_neg].
      intros a b Ha Hb.
      apply (Forall_map2 (fun x => 0 <= x <= 1) (fun x => x < 0)); [|exact Ha | exact Hb].
      intros; nra.
    - apply (Forall_map2 (Forall (fun x => 0 <= x <= 1)) (Forall (fun x => x < 0)));
        [| | apply Forall_map_m; intros x; apply ln_Rsigmoid_neg].
      + intros a b Ha Hb.
        apply (Forall_map2 (fun x => 0 <= x <= 1) (fun x => x < 0)); [|exact Ha | exact Hb].
        intros; nra.
      + unfold map_m.
        apply (Forall_map_in (Forall (fun x => 0 <= x <= 1))); [|exact Hin].
        intros a Ha. apply (Forall_map_in (fun x => 0 <= x <= 1)); [|exact Ha].
        intros; lra. }
  pose proof (vsum_nonpos rows Hrows) as Hs.
  pose proof (pos_INR (length rows)) as Hn.
  destruct (Req_dec (INR (length rows)) 0) as [E|E].
  - rewrite E. unfold Rdiv. rewrite Rinv_0. lra.
  - unfold Rdiv. assert (0 < / INR (length rows)) by (apply Rinv_0_lt_compat; lra).
    nra.
Qed.

Lemma get_reconstruction_cost_nonpositive_witness :
  get_reconstruction_cost two_rows [] [[0]; [0]] <= 0.
Proof.
  apply (get_reconstruction_cost_nonpositive two_rows [] [[0]; [0]]).
  - discriminate.
  - repeat constructor; simpl; lra.
Defined.

(** ** The draws of the generators *)

Lemma rand_rows_draws (r c : nat) (s : stream) :
  shape (fst (rand_rows r c s)) r c
  /\ Forall (Forall (fun x => exists k, x = s k)) (fst (rand_rows r c s))
  /\ forall k, snd (rand_rows r c s) k = s (r * c + k)%nat.
Proof.
  revert s; induction r as [|r IH]; intros s; simpl.
  - repeat split; constructor.
  - specialize (IH (drop c s)).
    destruct (rand_rows r c (drop c s)) as [rest s'] eqn:E. simpl in *.
    destruct IH as ([Hlen Hrows] & Hin & Hdraws). split; [|split].
    + split; [simpl; now rewrite Hlen|].
      constructor; [|exact Hrows]. unfold take. now rewrite length_map, length_seq.
    + constructor.
      * unfold take. apply Forall_forall. intros x Hx. apply in_map_iff in Hx.
        destruct Hx as (k & <- & _). eauto.
      * eapply Forall_impl; [|exact Hin]. intros row Hrow.
        eapply Forall_impl; [|exact Hrow]. intros x [k ->]. unfold drop. eauto.
    + intros k. rewrite Hdraws. unfold drop. f_equal. lia.
Qed.

(** ** The tensors of a default construction *)

Lemma uniform_draws_bounded (b : R) (s : stream) (m : mat R) :
  0 <= b -> (forall k, 0 <= s k < 1) ->
  Forall (Forall (fun x => exists k, x = s k)) m ->
  Forall (Forall (fun x => Rabs x <= b)) (map_m (uniform (- b) b) m).
Proof.
  intros Hb Hs Hm. unfold map_m.
  apply (Forall_map_in (Forall (fun x => exists k, x = s k))); [|exact Hm].
  intros row Hrow.
  apply (Forall_map_in (fun x => exists k, x = s k)); [|exact Hrow].
  intros x [k ->]. apply Rabs_le.
  apply uniform_bounds; [lra | apply Hs].
Qed.

Lemma map_m_shape (f : R -> R) (m : mat R) (r c : nat) :
  shape m r c -> shape (map_m f m) r c.
Proof.
  intros [Hr Hc]. unfold map_m. split; [now rewrite length_map|].
  apply (Forall_map_in (fun row => length row = c)); [|exact Hc].
  intros row <-. apply length_map.
Qed.

(** X12. With default (None) tensors, positive sizes and numpy draws in [0, 1) the
    constructor returns a model whose U has n_label rows and W n_visible
    rows, each of n_hidden entries, no entry of U above
    4 sqrt(6 / (n_visible + n_label)) and none of W above
    4 sqrt(6 / (n_hidden + n_visible)) in absolute value; the biases have
    n_hidden, n_visible and n_label entries; the Theano generator is
    untouched and the numpy generator has given one draw per weight. *)
Theorem init_default_shapes_and_bounds RS RSt inp lab nv nh nl numpy_gen theano_gen a :
  (0 < nv)%nat -> (0 < nh)%nat -> (0 < nl)%nat ->
  (forall k, 0 <= numpy_rng (init_rng RS RSt numpy_gen theano_gen) k < 1) ->
  exists self g',
    DRBM_init RS RSt inp lab nv nh nl None None None None None numpy_gen theano_gen a
    = Ok (self, g')
    /\ shape (U self) nl nh /\ shape (W self) nv nh
    /\ Forall (Forall (fun x => Rabs x <= 4 * sqrt (6 / INR (nv + nl)))) (U self)
    /\ Forall (Forall (fun x => Rabs x <= 4 * sqrt (6 / INR (nh + nv)))) (W self)
    /\ length (hbias self) = nh /\ length (vbias self) = nv
    /\ length (labbias self) = nl
    /\ theano_rng g' = theano_rng (init_rng RS RSt numpy_gen theano_gen)
    /\ forall k, numpy_rng g' k
                 = numpy_rng (init_rng RS RSt numpy_gen theano_gen)
                     (nl * nh + nv * nh + k)%nat.
Proof.
  intros _ _ _ Hdraws. rewrite init_default. cbv zeta.
  set (g0 := init_rng RS RSt numpy_gen theano_gen) in *.
  destruct (rand_rows_draws nl nh (numpy_rng g0)) as (SU & DU & NU).
  destruct (rand_rows_draws nv nh (snd (rand_rows nl nh (numpy_rng g0))))
    as (SW & DW & NW).
  do 2 eexists. split; [reflexivity|].
  cbn [U W hbias vbias labbias theano_rng numpy_rng].
  split; [now apply map_m_shape|]. split; [now apply map_m_shape|].
  split; [|split].
  - apply (uniform_draws_bounded _ (numpy_rng g0)); [|exact Hdraws | exact DU].
    pose proof (sqrt_pos (6 / INR (nv + nl))). lra.
  - apply (uniform_draws_bounded _ (snd (rand_rows nl nh (numpy_rng g0)))); [| |exact DW].
    + pose proof (sqrt_pos (6 / INR (nh + nv))). lra.
    + intros k. rewrite NU. apply Hdraws.
  - rewrite !repeat_length. repeat split.
    intros k. rewrite NW, NU. f_equal. lia.
Qed.

Lemma init_default_shapes_and_bounds_witness :
  exists self g',
    DRBM_init zero_stream (fun _ => zero_stream) [[0]] [[1]] 1 1 1
              None None None None None None None (1 / 100)
    = Ok (self, g')
    /\ shape (U self) 1 1 /\ shape (W self) 1 1
    /\ Forall (Forall (fun x => Rabs x <= 4 * sqrt (6 / INR (1 + 1)))) (U self)
    /\ Forall (Forall (fun x => Rabs x <= 4 * sqrt (6 / INR (1 + 1)))) (W self)
    /\ length (hbias self) = 1%nat /\ length (vbias self) = 1%nat
    /\ length (labbias self) = 1%nat
    /\ theano_rng g' = theano_rng (init_rng zero_stream (fun _ => zero_stream) None None)
    /\ forall k, numpy_rng g' k
                 = numpy_rng (init_rng zero_stream (fun _ => zero_stream) None None)
                     (1 * 1 + 1 * 1 + k)%nat.
Proof.
  apply (init_default_shapes_and_bounds zero_stream (fun _ => zero_stream)
           [[0]] [[1]] 1 1 1 None None (1 / 100)); try lia.
  intros k. unfold init_rng, drop, zero_stream. simpl. lra.
Defined.
